(** * The talking-avatar backend (backend/server.js), embedded in Rocq

    The server is a thin orchestration layer: one POST endpoint that asks a
    language model for a styled reply, hands the reply to a speech service,
    stores the audio in a file and answers with the reply and the viseme
    timeline; and one GET endpoint that streams such a file and unlinks it.

    The embedding is shallow.  Pure functions of the source are Rocq
    functions.  The handlers pass a [World] explicitly: the files under the
    server directory (a finite map from the paths of its regular files to their bytes) and the trace of
    everything the handler did to the outside (console lines, requests to
    the two collaborators, the lifecycle of the synthesizer session).  What
    the collaborators answer is an argument of the handler. *)

From Stdlib Require Import ZArith QArith Floats.
From stdpp Require Import gmap strings list.

Local Open Scope string_scope.
Local Open Scope list_scope.

(** ** Text helpers

    The source builds its strings with template literals that contain the
    double-quote character and line breaks; both are written here by their
    character codes. *)

Definition dq : string := String (Ascii.ascii_of_nat 34) EmptyString.
Definition nl : string := String (Ascii.ascii_of_nat 10) EmptyString.

(** An attribute value between double quotes. *)
Definition quoted (s : string) : string := dq +:+ s +:+ dq.

(** Substring test, used to read structure off a markup document. *)
Definition occurs_in (needle hay : string) : Prop :=
  exists before after, hay = before +:+ needle +:+ after.

(** ** JavaScript values

    The request body is what [express.json()] parsed, so a field of it is a
    JSON value, or [undefined] when the field is absent.  Numbers are IEEE
    doubles, as in the language. *)

Module Js.

Set Warnings "-register-all".

Inductive value :=
| Undefined
| Null
| Bool (b : bool)
| Num (n : float)
| Str (s : string)
| Arr (elems : list value)
| Obj (fields : list (string * value)).

(** ToBoolean of the language standard: the falsy values are [undefined],
    [null], [false], the two zeros, NaN and the empty string.  Arrays and
    objects are truthy, the empty ones included. *)
Definition to_boolean (v : value) : bool :=
  match v with
  | Undefined | Null => false
  | Bool b => b
  | Num n => negb (PrimFloat.is_zero n || PrimFloat.is_nan n)
  | Str s => negb (String.eqb s EmptyString)
  | Arr _ | Obj _ => true
  end.

(** Reading a property of an object, given as the list of its own
    properties, each name once: the field of that name, [undefined] when
    there is none. *)
Fixpoint get (key : string) (fields : list (string * value)) : value :=
  match fields with
  | [] => Undefined
  | (k, v) :: rest => if String.eqb k key then v else get key rest
  end.

(** The falsy values, listed one by one. *)
Inductive falsy : value -> Prop :=
| falsy_undefined : falsy Undefined
| falsy_null : falsy Null
| falsy_false : falsy (Bool false)
| falsy_zero n : PrimFloat.is_zero n = true -> falsy (Num n)
| falsy_nan n : PrimFloat.is_nan n = true -> falsy (Num n)
| falsy_empty : falsy (Str EmptyString).

(** A string is whitespace-only when it is not empty and each of its
    characters is a space, a tab, a line feed or a carriage return. *)
Definition is_space (c : Ascii.ascii) : bool :=
  let n := Ascii.nat_of_ascii c in
  (n =? 32)%nat || (n =? 9)%nat || (n =? 10)%nat || (n =? 13)%nat.

Fixpoint all_space (s : string) : bool :=
  match s with
  | EmptyString => true
  | String c rest => is_space c && all_space rest
  end.

Definition whitespace_only (s : string) : bool :=
  negb (String.eqb s EmptyString) && all_space s.

End Js.

(** ** Markup Builder: [buildSSML] *)

Module Ssml.

(** The four literal chunks of the template literal of [buildSSML], in
    source order; the holes between them take the voice name, the style and
    the message. *)
Definition chunk_head : string :=
  "<speak version=" +:+ quoted "1.0" +:+ nl +:+
  "  xmlns=" +:+ quoted "http://www.w3.org/2001/10/synthesis" +:+ nl +:+
  "  xmlns:mstts=" +:+ quoted "https://www.w3.org/2001/mstts" +:+ nl +:+
  "  xml:lang=" +:+ quoted "en-US" +:+ ">" +:+ nl +:+
  "  <voice name=" +:+ dq.

Definition chunk_after_voice : string :=
  dq +:+ ">" +:+ nl +:+
  "      <mstts:viseme type=" +:+ quoted "redlips_front" +:+ "/>" +:+ nl +:+
  "      <mstts:express-as style=" +:+ dq.

Definition chunk_after_style : string :=
  dq +:+ ">" +:+ nl +:+
  "          ".

Definition chunk_tail : string :=
  nl +:+
  "      </mstts:express-as>" +:+ nl +:+
  "      <mstts:viseme type=" +:+ quoted "sil" +:+ "/>" +:+ nl +:+
  "      <mstts:viseme type=" +:+ quoted "sil" +:+ "/>" +:+ nl +:+
  "  </voice>" +:+ nl +:+
  "  </speak>".

(** [buildSSML(message, style)]; the module constant [AZURE_VOICE_NAME] of
    the source is the first argument. *)
Definition buildSSML (AZURE_VOICE_NAME message style : string) : string :=
  chunk_head +:+ AZURE_VOICE_NAME +:+ chunk_after_voice +:+ style +:+
  chunk_after_style +:+ message +:+ chunk_tail.

(** The parts of a markup document, as the specification names them. *)

Definition calibration_marker (shape : string) : string :=
  "<mstts:viseme type=" +:+ quoted shape +:+ "/>".

Definition style_span (style body : string) : string :=
  "<mstts:express-as style=" +:+ quoted style +:+ ">" +:+ body +:+
  "</mstts:express-as>".

Definition voice_wrapper (voice body : string) : string :=
  "<voice name=" +:+ quoted voice +:+ ">" +:+ body +:+ "</voice>".

Definition speak_document (body : string) : string :=
  "<speak version=" +:+ quoted "1.0" +:+ nl +:+
  "  xmlns=" +:+ quoted "http://www.w3.org/2001/10/synthesis" +:+ nl +:+
  "  xmlns:mstts=" +:+ quoted "https://www.w3.org/2001/mstts" +:+ nl +:+
  "  xml:lang=" +:+ quoted "en-US" +:+ ">" +:+ body +:+ "</speak>".

(** A line break followed by the indentation of the next line. *)
Definition indent2 : string := nl +:+ "  ".
Definition indent6 : string := nl +:+ "      ".
Definition indent10 : string := nl +:+ "          ".

(** The document the specification describes: inside the voice wrapper, in
    this order, one opening marker, the style span around the text, two
    closing markers. *)
Definition markup_document (voice text style : string) : string :=
  speak_document
    (indent2 +:+
     voice_wrapper voice
       (indent6 +:+ calibration_marker "redlips_front" +:+
        indent6 +:+ style_span style (indent10 +:+ text +:+ indent6) +:+
        indent6 +:+ calibration_marker "sil" +:+
        indent6 +:+ calibration_marker "sil" +:+
        indent2) +:+
     indent2).

End Ssml.

(** ** The world a handler runs in *)

(** A thrown JavaScript error: its name and its message. *)
Record JsError := { error_name : string; error_message : string }.

Definition new_Error (msg : string) : JsError :=
  {| error_name := "Error"; error_message := msg |}.

(** What the language model is asked to produce, and what the chat flow
    reads of it: [parsedResponse.message], [.style] and [.reasoning]. *)
Record StyledReply := {
  reply_message : string;
  reply_style : string;
  reply_reasoning : string }.

(** The [response_format] of the request: the schema name, the enumeration
    the style is restricted to, the required fields, and the two flags. *)
Record ResponseFormat := {
  schema_name : string;
  style_enum : list string;
  required : list string;
  additionalProperties : bool;
  strict : bool }.

(** The argument of [openai.chat.completions.create].  The user content is
    whatever value the request body carried. *)
Record ChatCompletionRequest := {
  model : string;
  system_content : string;
  user_content : Js.value;
  response_format : ResponseFormat }.

Inductive LogArg :=
| LogValue (v : Js.value)
| LogReply (r : StyledReply)
| LogCount (n : nat)
| LogError (e : JsError).

(** Everything a handler does to the outside, in program order. *)
Inductive Event :=
| ConsoleLog (text : string) (args : list LogArg)
| ConsoleError (text : string) (args : list LogArg)
| LlmCall (req : ChatCompletionRequest)
| SynthNew
| SynthSpeak (ssml : string)
| SynthClose
| TtsResolve
| TtsReject (e : JsError).

Record World := {
  files : gmap string (list Byte.byte);
  trace : list Event }.

(** A computation either returns or throws, and leaves a world behind. *)
Inductive Outcome (A : Type) :=
| Returned (a : A)
| Thrown (e : JsError).
Arguments Returned {A} a.
Arguments Thrown {A} e.

Definition Eff (A : Type) : Type := World -> Outcome A * World.

#[global] Instance Eff_ret : MRet Eff := fun A a w => (Returned a, w).

#[global] Instance Eff_bind : MBind Eff := fun A B f m w =>
  match m w with
  | (Returned a, w') => f a w'
  | (Thrown e, w') => (Thrown e, w')
  end.

Definition throw {A : Type} (e : JsError) : Eff A := fun w => (Thrown e, w).

(** [try { body } catch (error) { handler error }] *)
Definition try_catch {A : Type} (body : Eff A) (handler : JsError -> Eff A) : Eff A :=
  fun w =>
    match body w with
    | (Returned a, w') => (Returned a, w')
    | (Thrown e, w') => handler e w'
    end.

Definition emit (ev : Event) : Eff unit := fun w =>
  (Returned tt, {| files := files w; trace := trace w ++ [ev] |}).

Definition console_log (text : string) (args : list LogArg) : Eff unit :=
  emit (ConsoleLog text args).

Definition console_error (text : string) (args : list LogArg) : Eff unit :=
  emit (ConsoleError text args).

(** ** Speech Synthesizer: [textToSpeech] *)

Module Speech.

(** [sdk.ResultReason].  The source compares against one member only; the
    other members of the enumeration are told apart by their number. *)
Inductive ResultReason :=
| SynthesizingAudioCompleted
| Canceled
| OtherReason (code : nat).

Definition is_completed (r : ResultReason) : bool :=
  match r with
  | SynthesizingAudioCompleted => true
  | _ => false
  end.

(** The event object [e] passed to [visemeReceived]: the raw audio offset,
    a whole number of the collaborator's ticks, and the mouth-shape id. *)
Record VisemeNotification := { audioOffset : Z; visemeId : Z }.

(** One element of the [visemes] array, with the offset before rounding:
    the exact quotient of the raw offset by 10000.  The handlers below
    carry events of this form; their statements speak of the number, the
    order and the ids of the events.  The double the listener really
    stores, the rounded quotient, is the subject of module [Doubles]. *)
Record VisemeEvent := { offset : Q; id : Z }.

(** The listener [synthesizer.visemeReceived]: [visemes.push({...})]. *)
Definition visemeReceived (visemes : list VisemeEvent) (e : VisemeNotification)
  : list VisemeEvent :=
  visemes ++ [ {| offset := inject_Z (audioOffset e) / 10000; id := visemeId e |} ].

(** A rational that is a whole number. *)
Definition is_integer (q : Q) : Prop := exists z : Z, q == inject_Z z.

(** How the speech collaborator drives one session: the viseme
    notifications it raises, in order, then the one callback it ends with,
    the result callback or the error callback of [speakSsmlAsync]. *)
Inductive Terminal :=
| OnResult (reason : ResultReason) (audioData : list Byte.byte)
| OnError (error : JsError).

Record Run := { notifications : list VisemeNotification; terminal : Terminal }.

Record SynthesisResult := {
  audioBuffer : list Byte.byte;
  visemes : list VisemeEvent }.

(** [textToSpeech(message, style)].  A rejected promise is a thrown error
    at the [await] of the caller. *)
Definition textToSpeech (AZURE_VOICE_NAME : string) (speakSsmlAsync : string -> Run)
    (message style : string) : Eff SynthesisResult :=
  let ssml := Ssml.buildSSML AZURE_VOICE_NAME message style in
  emit SynthNew ;;
  emit (SynthSpeak ssml) ;;
  let run := speakSsmlAsync ssml in
  let visemes := fold_left visemeReceived (notifications run) [] in
  match terminal run with
  | OnResult reason audioData =>
      if is_completed reason then
        emit SynthClose ;;
        emit TtsResolve ;;
        mret {| audioBuffer := audioData; visemes := visemes |}
      else
        emit SynthClose ;;
        emit (TtsReject (new_Error "Speech synthesis failed.")) ;;
        throw (new_Error "Speech synthesis failed.")
  | OnError error =>
      emit SynthClose ;;
      emit (TtsReject error) ;;
      throw error
  end.

(** Sessions opened and not yet closed along a trace. *)
Fixpoint open_sessions (t : list Event) (n : nat) : nat :=
  match t with
  | [] => n
  | SynthNew :: rest => open_sessions rest (S n)
  | SynthClose :: rest => open_sessions rest (Nat.pred n)
  | _ :: rest => open_sessions rest n
  end.

Definition is_settle (ev : Event) : bool :=
  match ev with
  | TtsResolve | TtsReject _ => true
  | _ => false
  end.

(** The speech collaborator fails: it calls the error callback, or it
    completes with a reason other than completed audio. *)
Definition fails (run : Run) : Prop :=
  match terminal run with
  | OnResult reason _ => is_completed reason = false
  | OnError _ => True
  end.

End Speech.

(** ** The viseme listener on IEEE doubles

    [e.audioOffset / 10000] divides two JavaScript numbers, so what the
    listener stores is a double: the quotient rounded to the nearest
    representable number. *)

Module Doubles.

(** The event object [e]: [e.audioOffset] as the number the language
    holds, and the mouth-shape id, which the listener only copies. *)
Record VisemeNotification := { audioOffset : float; visemeId : Z }.

(** One element of the [visemes] array. *)
Record VisemeEvent := { offset : float; id : Z }.

(** The listener [synthesizer.visemeReceived]:
    [visemes.push({ offset: e.audioOffset / 10000, id: e.visemeId })]. *)
Definition visemeReceived (visemes : list VisemeEvent) (e : VisemeNotification)
  : list VisemeEvent :=
  visemes ++ [ {| offset := (audioOffset e / 10000)%float; id := visemeId e |} ].

(** The rational a finite double stands for: its mantissa times two to
    its exponent.  Infinities and NaN stand for none. *)
Definition value (f : float) : option Q :=
  match Prim2SF f with
  | S754_zero _ => Some 0%Q
  | S754_finite s m e =>
      let mantissa := if s then Zneg m else Zpos m in
      Some (match e with
            | Zneg k => Qmake mantissa (2 ^ k)%positive
            | _ => inject_Z (mantissa * 2 ^ e)
            end)
  | S754_infinity _ | S754_nan => None
  end.

(** A double that is a whole number. *)
Definition is_integer (f : float) : Prop :=
  exists q, value f = Some q /\ Speech.is_integer q.

(** A number of the specification of binary64 with the sign bit [s]; NaN
    has none. *)
Definition signed_as (s : bool) (x : spec_float) : Prop :=
  match x with
  | S754_zero s' | S754_infinity s' | S754_finite s' _ _ => s' = s
  | S754_nan => False
  end.

End Doubles.

(** ** Startup: reading the configuration *)

Module Startup.

(** [process.env.NAME] as a JavaScript value: [undefined] when the variable
    is absent. *)
Definition env_value (env : gmap string string) (name : string) : Js.value :=
  match env !! name with
  | Some s => Js.Str s
  | None => Js.Undefined
  end.

(** The module constants the rest of the server reads. *)
Record Config := {
  AZURE_SPEECH_KEY : string;
  AZURE_SPEECH_REGION : string;
  AZURE_VOICE_NAME : string }.

Inductive Started :=
| Listening (cfg : Config)
| Refused (e : JsError).

(** The top-level statements of the module up to [app.listen].  The
    constructor of the language-model client is library code outside the
    repository: [new_OpenAI] says, for the credential it is given, whether
    it throws.  The guard on the three speech values is the source's
    [if (!KEY || !REGION || !VOICE) throw]. *)
Definition startup (new_OpenAI : Js.value -> option JsError) (env : gmap string string)
  : Started :=
  match new_OpenAI (env_value env "OPENAI_API_KEY") with
  | Some e => Refused e
  | None =>
      if negb (Js.to_boolean (env_value env "AZURE_SPEECH_KEY"))
         || negb (Js.to_boolean (env_value env "AZURE_SPEECH_REGION"))
         || negb (Js.to_boolean (env_value env "AZURE_VOICE_NAME"))
      then Refused (new_Error "Azure Speech service environment variables are not defined.")
      else Listening {| AZURE_SPEECH_KEY := default EmptyString (env !! "AZURE_SPEECH_KEY");
                        AZURE_SPEECH_REGION := default EmptyString (env !! "AZURE_SPEECH_REGION");
                        AZURE_VOICE_NAME := default EmptyString (env !! "AZURE_VOICE_NAME") |}
  end.

(** The four configuration values of the specification. *)
Definition required_variables : list string :=
  ["OPENAI_API_KEY"; "AZURE_SPEECH_KEY"; "AZURE_SPEECH_REGION"; "AZURE_VOICE_NAME"].

Definition speech_variables : list string :=
  ["AZURE_SPEECH_KEY"; "AZURE_SPEECH_REGION"; "AZURE_VOICE_NAME"].

End Startup.

(** ** The two endpoints *)

Module Server.

Definition VALID_STYLES : list string :=
  ["cheerful"; "sad"; "angry"; "friendly"; "terrified";
   "unfriendly"; "whispering"; "hopeful"; "shouting"; "excited"].

(** The instruction text sent with every request, line by line. *)
Definition SYSTEM_PROMPT : string :=
  "You are a helpful assistant that responds naturally while choosing appropriate speaking styles." +:+ nl +:+
  "    " +:+ nl +:+
  "RESPONSE FORMAT:" +:+ nl +:+
  "Return a JSON object with:" +:+ nl +:+
  "- message: your response text" +:+ nl +:+
  "- style: speaking style to use" +:+ nl +:+
  "- reasoning: brief explanation of style choice" +:+ nl +:+
  EmptyString +:+ nl +:+
  "AVAILABLE STYLES AND USAGE:" +:+ nl +:+
  "- cheerful: For positive news, celebrations, congratulations" +:+ nl +:+
  "- sad: For empathizing with difficulties or losses" +:+ nl +:+
  "- angry: Reserved for expressing justified concerns (use rarely)" +:+ nl +:+
  "- friendly: Default style for general conversation" +:+ nl +:+
  "- terrified: For expressing shock or extreme surprise" +:+ nl +:+
  "- unfriendly: For stern warnings or serious cautions (use rarely)" +:+ nl +:+
  "- whispering: For sharing secrets or calm reassurance" +:+ nl +:+
  "- hopeful: For encouragement and positive future outlook" +:+ nl +:+
  "- shouting: For emphasis or excitement (use very rarely)" +:+ nl +:+
  "- excited: For sharing enthusiasm or great news" +:+ nl +:+
  EmptyString +:+ nl +:+
  "Choose styles based on the emotional context of the conversation.".

(** The two ways [fs.writeFileSync] fails.  It opens the file for writing,
    which creates or empties it, then writes.  A failure at the open leaves
    the directory alone; a failure while writing leaves the file with the
    bytes written so far. *)
Inductive WriteFailure :=
| OpenFails (e : JsError)
| WriteFails (e : JsError) (written : nat).

(** Everything outside the repository that a request meets.  [create] is
    what the language model
    answers to a request, the content of its first choice or a rejection;
    [JSON_parse] throws on text it cannot parse; [speakSsmlAsync] is the
    speech collaborator; [uuidv4] is the identifier drawn for this request;
    [write_error] says how [fs.writeFileSync] fails for a path, if it does;
    [path_join] is [path.join]. *)
Record Environment := {
  create : ChatCompletionRequest -> Outcome string;
  JSON_parse : string -> Outcome StyledReply;
  speakSsmlAsync : string -> Speech.Run;
  uuidv4 : string;
  write_error : string -> option WriteFailure;
  path_join : string -> string -> string;
  dirname : string }.

(** The body [res.json] or the stream sends. *)
Inductive Body :=
| JsonError (error : string)
| JsonChat (response style reasoning audio : string) (visemes : list Speech.VisemeEvent)
| AudioStream (data : list Byte.byte).

Record Response := {
  status : nat;
  headers : list (string * string);
  body : Body }.

Definition json (code : nat) (b : Body) : Response :=
  {| status := code; headers := []; body := b |}.

(** Lifting a collaborator's answer into a computation. *)
Definition await {A : Type} (o : Outcome A) : Eff A := fun w => (o, w).

(** The request the chat handler sends to the language model. *)
Definition completion_request (env : Environment) (message : Js.value)
  : ChatCompletionRequest :=
  {| model := "gpt-4o-2024-08-06";
     system_content := SYSTEM_PROMPT;
     user_content := message;
     response_format :=
       {| schema_name := "avatar_response";
          style_enum := VALID_STYLES;
          required := ["message"; "style"; "reasoning"];
          additionalProperties := false;
          strict := true |} |}.

(** [fs.writeFileSync(filePath, data)] *)
Definition writeFileSync (env : Environment) (filePath : string)
    (data : list Byte.byte) : Eff unit := fun w =>
  match write_error env filePath with
  | Some (OpenFails e) => (Thrown e, w)
  | Some (WriteFails e written) =>
      (Thrown e, {| files := <[filePath := take written data]> (files w);
                    trace := trace w |})
  | None => (Returned tt, {| files := <[filePath := data]> (files w); trace := trace w |})
  end.

(** The [try] block of the chat handler. *)
Definition chat_try (cfg : Startup.Config) (env : Environment) (message : Js.value)
  : Eff Response :=
  console_log "Requesting OpenAI response..." [] ;;
  emit (LlmCall (completion_request env message)) ;;
  content ← await (create env (completion_request env message)) ;
  parsedResponse ← await (JSON_parse env content) ;
  console_log "OpenAI response:" [LogReply parsedResponse] ;;
  console_log "Using style:" [LogValue (Js.Str (reply_style parsedResponse))] ;;
  console_log "Converting to speech..." [] ;;
  speech ← Speech.textToSpeech (Startup.AZURE_VOICE_NAME cfg) (speakSsmlAsync env)
             (reply_message parsedResponse) (reply_style parsedResponse) ;
  console_log "Speech conversion complete, visemes:"
    [LogCount (length (Speech.visemes speech))] ;;
  let uniqueFilename := "response_" +:+ uuidv4 env +:+ ".mp3" in
  let filePath := path_join env (dirname env) uniqueFilename in
  writeFileSync env filePath (Speech.audioBuffer speech) ;;
  console_log "Audio file saved" [] ;;
  console_log "Response sent successfully" [] ;;
  mret (json 200 (JsonChat (reply_message parsedResponse) (reply_style parsedResponse)
                    (reply_reasoning parsedResponse) uniqueFilename
                    (Speech.visemes speech))).

(** The [catch] block of the chat handler. *)
Definition chat_catch (error : JsError) : Eff Response :=
  console_error "Error in /api/chat:" [LogError error] ;;
  console_error "Error details:" [LogError error] ;;
  mret (json 500 (JsonError "An error occurred while processing your request.")).

(** The handler of [POST /api/chat], behind the rate limiter; [req_body] is
    the parsed request body. *)
Definition post_chat (cfg : Startup.Config) (env : Environment)
    (req_body : list (string * Js.value)) : Eff Response :=
  let message := Js.get "message" req_body in
  console_log "Received message:" [LogValue message] ;;
  if negb (Js.to_boolean message) then
    console_log "Error: No message provided" [] ;;
    mret (json 400 (JsonError "Message is required."))
  else
    try_catch (chat_try cfg env message) chat_catch.

(** [fs.unlink(filePath, callback)]: the callback's error, and the files
    left. *)
Definition unlink (filePath : string) (fs : gmap string (list Byte.byte))
  : option JsError * gmap string (list Byte.byte) :=
  match fs !! filePath with
  | Some _ => (None, delete filePath fs)
  | None => (Some {| error_name := "Error"; error_message := "ENOENT" |}, fs)
  end.

(** The listener of the response's [finish] event. *)
Definition on_finish (filePath : string) : Eff unit := fun w =>
  match unlink filePath (files w) with
  | (None, fs') => (Returned tt, {| files := fs'; trace := trace w |})
  | (Some err, fs') =>
      console_error "Error deleting audio file:" [LogError err]
        {| files := fs'; trace := trace w |}
  end.

(** The handler of [GET /api/audio/:filename], from the request to the end
    of the [finish] listener.  The map of the world holds the regular files
    of the directory, so the handler is described for a path that names a
    regular file or nothing at all; a path that names a directory passes
    [fs.access] in the source and is not covered here. *)
Definition get_audio (env : Environment) (filename : string) : Eff Response := fun w =>
  let filePath := path_join env (dirname env) filename in
  match files w !! filePath with
  | None => (Returned (json 404 (JsonError "Audio file not found.")), w)
  | Some data =>
      (_ ← on_finish filePath ;
       mret {| status := 200;
               headers := [("Content-Type", "audio/mpeg");
                           ("Content-Disposition", "attachment; filename=" +:+ filename)];
               body := AudioStream data |}) w
  end.

(** The language-model requests along a trace. *)
Definition llm_calls (t : list Event) : list ChatCompletionRequest :=
  omap (fun ev => match ev with LlmCall r => Some r | _ => None end) t.

(** The artifact pattern of the chat flow: [response_<uuid>.mp3]. *)
Definition artifact_name (filename : string) : Prop :=
  exists uuid, filename = "response_" +:+ uuid +:+ ".mp3".

End Server.

(** ** A concrete run

    One configuration, one set of collaborators and a few worlds, for the
    examples below. *)

Module Demo.

Definition cfg : Startup.Config :=
  {| Startup.AZURE_SPEECH_KEY := "0123456789abcdef";
     Startup.AZURE_SPEECH_REGION := "eastus";
     Startup.AZURE_VOICE_NAME := "en-US-JennyNeural" |}.

Definition reply : StyledReply :=
  {| reply_message := "Congratulations!";
     reply_style := "cheerful";
     reply_reasoning := "Good news deserves a cheerful voice." |}.

Definition audio : list Byte.byte := [Byte.xff; Byte.xfb; Byte.x90; Byte.x00].

(** A speech collaborator that completes, after two viseme notifications. *)
Definition speaks (_ : string) : Speech.Run :=
  {| Speech.notifications :=
       [ {| Speech.audioOffset := 500000; Speech.visemeId := 0 |};
         {| Speech.audioOffset := 1875000; Speech.visemeId := 19 |} ];
     Speech.terminal := Speech.OnResult Speech.SynthesizingAudioCompleted audio |}.

(** A speech collaborator that ends the session with the reason Canceled. *)
Definition cancels (_ : string) : Speech.Run :=
  {| Speech.notifications := [ {| Speech.audioOffset := 500000; Speech.visemeId := 0 |} ];
     Speech.terminal := Speech.OnResult Speech.Canceled [] |}.

Definition env_with (speech : string -> Speech.Run) : Server.Environment :=
  {| Server.create := fun _ => Returned "{...}";
     Server.JSON_parse := fun _ => Returned reply;
     Server.speakSsmlAsync := speech;
     Server.uuidv4 := "1b9d6bcd-bbfd-4b2d-9b5d-ab8dfbbd4bed";
     Server.write_error := fun _ => None;
     Server.path_join := fun dir name => dir +:+ "/" +:+ name;
     Server.dirname := "/srv/backend" |}.

Definition env : Server.Environment := env_with speaks.

Definition empty_world : World := {| files := ∅; trace := [] |}.

(** A server directory that holds one artifact and the server's own file. *)
Definition stocked_world : World :=
  {| files := {[ "/srv/backend/response_1b9d6bcd-bbfd-4b2d-9b5d-ab8dfbbd4bed.mp3" := audio;
                 "/srv/backend/server.js" := [Byte.x69; Byte.x6d; Byte.x70] ]};
     trace := [] |}.

(** The three speech variables set, the language-model credential absent. *)
Definition speech_only_env : gmap string string :=
  {[ "AZURE_SPEECH_KEY" := "0123456789abcdef";
     "AZURE_SPEECH_REGION" := "eastus";
     "AZURE_VOICE_NAME" := "en-US-JennyNeural" ]}.

End Demo.

(** ** The parts of the handlers, taken one by one *)

Module Parts.

(** The object literal the viseme listener pushes for a notification, with
    the offset before rounding, as in [Speech.visemeReceived]. *)
Definition event_of (e : Speech.VisemeNotification) : Speech.VisemeEvent :=
  {| Speech.offset := inject_Z (Speech.audioOffset e) / 10000;
     Speech.id := Speech.visemeId e |}.


(** The name and the path of the audio file a chat request writes. *)
Definition uniqueFilename (env : Server.Environment) : string :=
  "response_" +:+ Server.uuidv4 env +:+ ".mp3".

Definition filePath (env : Server.Environment) : string :=
  Server.path_join env (Server.dirname env) (uniqueFilename env).

(** The markup a chat request has spoken for a parsed reply. *)
Definition ssml_of (cfg : Startup.Config) (parsed : StyledReply) : string :=
  Ssml.buildSSML (Startup.AZURE_VOICE_NAME cfg) (reply_message parsed)
    (reply_style parsed).

(** Every step of a chat request goes well: the message passes the guard,
    the language model answers with text that parses to [parsed], the
    speech collaborator completes with [audioData], and the disk takes the
    file. *)
Definition chat_goes_well (cfg : Startup.Config) (env : Server.Environment)
    (req_body : list (string * Js.value)) (parsed : StyledReply)
    (audioData : list Byte.byte) : Prop :=
  Js.to_boolean (Js.get "message" req_body) = true
  /\ (exists content,
        Server.create env (Server.completion_request env (Js.get "message" req_body))
        = Returned content
        /\ Server.JSON_parse env content = Returned parsed)
  /\ Speech.terminal (Server.speakSsmlAsync env (ssml_of cfg parsed))
     = Speech.OnResult Speech.SynthesizingAudioCompleted audioData
  /\ Server.write_error env (filePath env) = None.

(** The events of one synthesizer session, from creation to the settling
    of the promise. *)
Definition session (ssml : string) (settle : Event) : list Event :=
  [SynthNew; SynthSpeak ssml; SynthClose; settle].

(** The callback of [fs.access] in the audio handler, up to the start of
    the stream: the response under way and, when a stream was started, the
    path its [finish] listener will unlink.  The world is only read. *)
Definition on_access (env : Server.Environment) (filename : string) (w : World)
  : Server.Response * option string :=
  let filePath := Server.path_join env (Server.dirname env) filename in
  match files w !! filePath with
  | None => (Server.json 404 (Server.JsonError "Audio file not found."), None)
  | Some data =>
      ({| Server.status := 200;
          Server.headers :=
            [("Content-Type", "audio/mpeg");
             ("Content-Disposition", "attachment; filename=" +:+ filename)];
          Server.body := Server.AudioStream data |},
       Some filePath)
  end.

(** The [finish] listener of a response under way, if it has one. *)
Definition finish (pending : option string) : Eff unit :=
  match pending with
  | Some filePath => Server.on_finish filePath
  | None => mret tt
  end.

(** The error [fs.unlink] reports for a missing file. *)
Definition ENOENT : JsError := {| error_name := "Error"; error_message := "ENOENT" |}.

End Parts.

(** ** More collaborators for the examples *)

Module Cases.

(** A language model that cannot be reached. *)
Definition unreachable_env : Server.Environment :=
  {| Server.create := fun _ => Thrown (new_Error "Connection error.");
     Server.JSON_parse := fun _ => Returned Demo.reply;
     Server.speakSsmlAsync := Demo.speaks;
     Server.uuidv4 := "1b9d6bcd-bbfd-4b2d-9b5d-ab8dfbbd4bed";
     Server.write_error := fun _ => None;
     Server.path_join := fun dir name => dir +:+ "/" +:+ name;
     Server.dirname := "/srv/backend" |}.

(** A disk that fills up after two bytes of every write. *)
Definition full_disk_env : Server.Environment :=
  {| Server.create := fun _ => Returned "{...}";
     Server.JSON_parse := fun _ => Returned Demo.reply;
     Server.speakSsmlAsync := Demo.speaks;
     Server.uuidv4 := "1b9d6bcd-bbfd-4b2d-9b5d-ab8dfbbd4bed";
     Server.write_error := fun _ => Some (Server.WriteFails (new_Error "ENOSPC") 2);
     Server.path_join := fun dir name => dir +:+ "/" +:+ name;
     Server.dirname := "/srv/backend" |}.

(** The constructor of the language-model client as startup meets it: it
    throws when the credential it is given is undefined, and accepts any
    other. *)
Definition openai_client (apiKey : Js.value) : option JsError :=
  match apiKey with
  | Js.Undefined =>
      Some {| error_name := "OpenAIError";
              error_message := "The OPENAI_API_KEY environment variable is missing or empty" |}
  | _ => None
  end.

(** The language-model credential alone. *)
Definition llm_only_env : gmap string string :=
  {[ "OPENAI_API_KEY" := "sk-0000" ]}.

Definition promotion : list (string * Js.value) :=
  [("message", Js.Str "I just got a promotion!")].

(** The environment of a complete configuration. *)
Definition full_env : gmap string string :=
  {[ "OPENAI_API_KEY" := "sk-0000";
     "AZURE_SPEECH_KEY" := "0123456789abcdef";
     "AZURE_SPEECH_REGION" := "eastus";
     "AZURE_VOICE_NAME" := "en-US-JennyNeural" ]}.

End Cases.

(** * Properties *)

(** ** String concatenation *)

Lemma append_cons (ch : Ascii.ascii) (a b : string) :
  String ch a +:+ b = String ch (a +:+ b).
Proof. reflexivity. Qed.

Lemma append_assoc (a b c : string) : (a +:+ b) +:+ c = a +:+ (b +:+ c).
Proof.
  induction a as [|ch a IH]; [reflexivity|].
  rewrite !append_cons. by rewrite IH.
Qed.

Lemma append_length (a b : string) :
  String.length (a +:+ b) = (String.length a + String.length b)%nat.
Proof.
  induction a as [|ch a IH]; [reflexivity|].
  rewrite append_cons. simpl. by rewrite IH.
Qed.

(** ** Unfolding computations *)

Ltac run_eff :=
  unfold Server.post_chat, Server.chat_try, Server.chat_catch, Server.get_audio,
    Server.on_finish, Server.writeFileSync, Server.await, Speech.textToSpeech,
    try_catch, console_log, console_error, emit, throw,
    mbind, mret, Eff_bind, Eff_ret in *; simpl in *.

Lemma llm_calls_app (t1 t2 : list Event) :
  Server.llm_calls (t1 ++ t2) = Server.llm_calls t1 ++ Server.llm_calls t2.
Proof. unfold Server.llm_calls. apply omap_app. Qed.

(** The chat handler never throws: every path ends in a response. *)
Lemma post_chat_returns cfg env req_body w :
  exists r, (Server.post_chat cfg env req_body w).1 = Returned r.
Proof.
  run_eff.
  destruct (Js.to_boolean (Js.get "message" req_body)); simpl; [|eauto].
  destruct (Server.create env _) as [content|e]; simpl; [|eauto].
  destruct (Server.JSON_parse env content) as [reply|e]; simpl; [|eauto].
  destruct (Speech.terminal _) as [reason audio|e]; simpl; [|eauto].
  destruct (Speech.is_completed reason); simpl; [|eauto].
  destruct (Server.write_error env _) as [[?|? ?]|]; simpl; eauto.
Qed.

(** A request that passes the guard costs exactly one call to the language
    model, and the call carries the message as the body had it. *)
Lemma post_chat_truthy_calls cfg env req_body w :
  Js.to_boolean (Js.get "message" req_body) = true ->
  Server.llm_calls (trace (Server.post_chat cfg env req_body w).2)
  = Server.llm_calls (trace w)
    ++ [Server.completion_request env (Js.get "message" req_body)].
Proof.
  intros Htruthy. run_eff. rewrite Htruthy. simpl.
  destruct (Server.create env _) as [content|e]; simpl;
    [|by rewrite !llm_calls_app; simpl; rewrite !app_nil_r].
  destruct (Server.JSON_parse env content) as [reply|e]; simpl;
    [|by rewrite !llm_calls_app; simpl; rewrite !app_nil_r].
  destruct (Speech.terminal _) as [reason audio|e]; simpl;
    [|by rewrite !llm_calls_app; simpl; rewrite !app_nil_r].
  destruct (Speech.is_completed reason); simpl;
    [|by rewrite !llm_calls_app; simpl; rewrite !app_nil_r].
  destruct (Server.write_error env _) as [[?|? ?]|]; simpl;
    by rewrite !llm_calls_app; simpl; rewrite !app_nil_r.
Qed.

(** A request the guard rejects is answered 400 and goes nowhere. *)
Lemma post_chat_falsy cfg env req_body w :
  Js.to_boolean (Js.get "message" req_body) = false ->
  Server.post_chat cfg env req_body w
  = (Returned (Server.json 400 (Server.JsonError "Message is required.")),
     {| files := files w;
        trace := trace w
                 ++ [ConsoleLog "Received message:"
                       [LogValue (Js.get "message" req_body)]]
                 ++ [ConsoleLog "Error: No message provided" []] |}).
Proof. intros Hfalsy. run_eff. rewrite Hfalsy. simpl. by rewrite <- app_assoc. Qed.

(** A request that passes the guard is answered 200 or 500. *)
Lemma post_chat_status cfg env req_body w :
  Js.to_boolean (Js.get "message" req_body) = true ->
  exists r, (Server.post_chat cfg env req_body w).1 = Returned r
    /\ (Server.status r = 200 \/ Server.status r = 500).
Proof.
  intros Htruthy. run_eff. rewrite Htruthy. simpl.
  destruct (Server.create env _) as [content|e]; simpl; [|eauto].
  destruct (Server.JSON_parse env content) as [reply|e]; simpl; [|eauto].
  destruct (Speech.terminal _) as [reason audio|e]; simpl; [|eauto].
  destruct (Speech.is_completed reason); simpl; [|eauto].
  destruct (Server.write_error env _) as [[?|? ?]|]; simpl; eauto.
Qed.

(** ** Truthiness *)

Lemma to_boolean_false_iff (v : Js.value) : Js.to_boolean v = false <-> Js.falsy v.
Proof.
  split.
  - destruct v as [| |b|n|s|l|l]; simpl; intros H; try discriminate.
    + constructor.
    + constructor.
    + destruct b; [discriminate | constructor].
    + apply negb_false_iff, orb_true_iff in H as [H|H];
        [by apply Js.falsy_zero | by apply Js.falsy_nan].
    + apply negb_false_iff, String.eqb_eq in H. subst. constructor.
  - intros H; destruct H; simpl; try reflexivity.
    + by rewrite H.
    + rewrite H. by rewrite orb_true_r.
Qed.

(** ** Chat: validation and what reaches the language model *)

(** C1, evaluated on the code: a message that carries a script element is
    sent to the language model exactly as it arrived.  Whatever the
    collaborators answer, the one request of the run has the raw text,
    markup included, as its user content; no sanitizing step stands between
    the request body and the call. *)
Theorem raw_markup_reaches_llm cfg env w :
  let raw := Js.Str "<script>alert(1)</script>Hello" in
  Server.llm_calls (trace (Server.post_chat cfg env [("message", raw)] w).2)
  = Server.llm_calls (trace w) ++ [Server.completion_request env raw]
  /\ user_content (Server.completion_request env raw) = raw.
Proof.
  intros raw. split; [|reflexivity].
  apply (post_chat_truthy_calls cfg env [("message", raw)] w). reflexivity.
Qed.

(** C2 as stated fails: a message of one space is whitespace-only, yet the
    handler answers 200 and has called the language model with it. *)
Lemma whitespace_message_not_rejected :
  let run := Server.post_chat Demo.cfg Demo.env [("message", Js.Str " ")] Demo.empty_world in
  Js.whitespace_only " " = true
  /\ (exists r, run.1 = Returned r /\ Server.status r = 200)
  /\ Server.llm_calls (trace run.2)
     = [Server.completion_request Demo.env (Js.Str " ")].
Proof.
  split; [reflexivity|]. split.
  - eexists. split; [vm_compute; reflexivity | reflexivity].
  - apply (post_chat_truthy_calls Demo.cfg Demo.env [("message", Js.Str " ")]
             Demo.empty_world).
    reflexivity.
Qed.

(** C2, amended: a string message is rejected exactly when it is the empty
    string.  The empty string is answered 400 and the language model is not
    called; every other string, the whitespace-only ones included, passes
    the guard and is sent to the language model. *)
Theorem string_message_rejected_iff_empty cfg env req_body w s :
  Js.get "message" req_body = Js.Str s ->
  let run := Server.post_chat cfg env req_body w in
  if String.eqb s EmptyString
  then run.1 = Returned (Server.json 400 (Server.JsonError "Message is required."))
       /\ files run.2 = files w
       /\ Server.llm_calls (trace run.2) = Server.llm_calls (trace w)
  else Server.llm_calls (trace run.2)
       = Server.llm_calls (trace w) ++ [Server.completion_request env (Js.Str s)].
Proof.
  intros Hmsg run. subst run.
  destruct (String.eqb s EmptyString) eqn:Hs.
  - rewrite post_chat_falsy by (rewrite Hmsg; simpl; by rewrite Hs).
    simpl. split; [reflexivity|]. split; [reflexivity|].
    rewrite !llm_calls_app. simpl. by rewrite !app_nil_r.
  - rewrite <- Hmsg. apply post_chat_truthy_calls.
    rewrite Hmsg. simpl. by rewrite Hs.
Qed.

Lemma string_message_rejected_iff_empty_witness :
  let run := Server.post_chat Demo.cfg Demo.env [("message", Js.Str EmptyString)]
               Demo.empty_world in
  run.1 = Returned (Server.json 400 (Server.JsonError "Message is required."))
  /\ files run.2 = files Demo.empty_world
  /\ Server.llm_calls (trace run.2) = Server.llm_calls (trace Demo.empty_world).
Proof.
  exact (string_message_rejected_iff_empty Demo.cfg Demo.env
           [("message", Js.Str EmptyString)] Demo.empty_world EmptyString eq_refl).
Defined.

(** C10: the guard rejects exactly the falsy values.  Every run ends in a
    response; its status is 400 exactly when the message field is absent or
    falsy; a rejected request leaves the language model alone; a truthy
    value of any type is the user content of the one request sent. *)
Theorem guard_rejects_exactly_falsy cfg env req_body w :
  let message := Js.get "message" req_body in
  let run := Server.post_chat cfg env req_body w in
  exists r, run.1 = Returned r
    /\ (Server.status r = 400 <-> Js.falsy message)
    /\ (Js.falsy message ->
        Server.llm_calls (trace run.2) = Server.llm_calls (trace w))
    /\ (~ Js.falsy message ->
        Server.llm_calls (trace run.2)
        = Server.llm_calls (trace w) ++ [Server.completion_request env message]
        /\ user_content (Server.completion_request env message) = message).
Proof.
  intros message run. subst message run.
  destruct (Js.to_boolean (Js.get "message" req_body)) eqn:Hb.
  - assert (Hnf : ~ Js.falsy (Js.get "message" req_body)).
    { intros Hf. apply to_boolean_false_iff in Hf. congruence. }
    destruct (post_chat_status cfg env req_body w Hb) as (r & Hr & Hst).
    exists r. split; [exact Hr|]. split; [|split].
    + split; [intros H400; destruct Hst as [Hst|Hst]; rewrite Hst in H400; discriminate
             | intros Hf; contradiction].
    + intros Hf; contradiction.
    + intros _. split; [by apply post_chat_truthy_calls | reflexivity].
  - assert (Hf : Js.falsy (Js.get "message" req_body)) by by apply to_boolean_false_iff.
    rewrite post_chat_falsy by exact Hb. simpl.
    eexists. split; [reflexivity|]. split; [|split].
    + split; [intros _; exact Hf | reflexivity].
    + intros _. rewrite !llm_calls_app. simpl. by rewrite !app_nil_r.
    + intros Hnf; contradiction.
Qed.

(** ** Viseme offsets *)

(** *** The sign of a quotient of doubles

    The division of the specification of binary64, read for its sign only:
    a dividend that is not below zero, divided by a positive finite
    number, gives a result that is not below zero, and never NaN. *)

Section QuotientSign.

Variables prec emax : Z.

Lemma shr_1_nonneg (mrs : shr_record) :
  (0 <= shr_m mrs)%Z -> (0 <= shr_m (shr_1 mrs))%Z.
Proof.
  destruct mrs as [m r s]. simpl. destruct m as [|p|p]; simpl.
  - lia.
  - destruct p; simpl; lia.
  - lia.
Qed.

Lemma iter_shr_1_nonneg (p : positive) : forall mrs : shr_record,
  (0 <= shr_m mrs)%Z -> (0 <= shr_m (SpecFloat.iter_pos shr_1 p mrs))%Z.
Proof.
  induction p as [p IH|p IH|]; intros mrs H; simpl.
  - apply IH, IH, shr_1_nonneg, H.
  - apply IH, IH, H.
  - apply shr_1_nonneg, H.
Qed.

Lemma shr_fexp_nonneg (m e : Z) (l : location) :
  (0 <= m)%Z -> (0 <= shr_m (fst (shr_fexp prec emax m e l)))%Z.
Proof.
  intros H. unfold shr_fexp, shr.
  assert (H0 : (0 <= shr_m (shr_record_of_loc m l))%Z).
  { destruct l as [|[| |]]; simpl; exact H. }
  destruct (_ - _)%Z; simpl; try exact H0.
  apply iter_shr_1_nonneg, H0.
Qed.

Lemma round_nearest_even_nonneg (m : Z) (l : location) :
  (0 <= m)%Z -> (0 <= round_nearest_even m l)%Z.
Proof.
  intros H. destruct l as [|[| |]]; simpl; try lia.
  destruct (Z.even m); lia.
Qed.

Lemma binary_round_aux_sign (sx : bool) (mx ex : Z) (lx : location) :
  (0 <= mx)%Z -> Doubles.signed_as sx (binary_round_aux prec emax sx mx ex lx).
Proof.
  intros H. unfold binary_round_aux.
  pose proof (shr_fexp_nonneg mx ex lx H) as H1.
  destruct (shr_fexp prec emax mx ex lx) as [mrs' e']. simpl in H1.
  pose proof (shr_fexp_nonneg _ e' loc_Exact
                (round_nearest_even_nonneg _ (loc_of_shr_record mrs') H1)) as H2.
  destruct (shr_fexp prec emax _ e' loc_Exact) as [mrs'' e'']. simpl in H2.
  destruct (shr_m mrs'') as [|m|m]; simpl.
  - reflexivity.
  - destruct (e'' <=? emax - prec)%Z; reflexivity.
  - lia.
Qed.

Lemma SFdiv_core_binary_nonneg (mx : positive) (ex : Z) (my : positive) (ey : Z) :
  (0 <= fst (fst (SFdiv_core_binary prec emax (Zpos mx) ex (Zpos my) ey)))%Z.
Proof.
  unfold SFdiv_core_binary.
  set (s := (_ - _ - _)%Z).
  set (m' := match s with
             | Zpos _ => Z.shiftl (Zpos mx) s
             | Z0 => Zpos mx
             | Zneg _ => 0%Z
             end).
  assert (Hm : (0 <= m')%Z).
  { subst m'. destruct s; try lia. apply Z.shiftl_nonneg. lia. }
  pose proof (Z.div_pos m' (Zpos my)) as Hq.
  unfold Z.div in Hq.
  destruct (Z.div_eucl m' (Zpos my)) as [q r]. simpl in *. apply Hq; lia.
Qed.

Lemma SFdiv_by_positive_not_below_zero (x : spec_float) (my : positive) (ey : Z) :
  SFleb (S754_zero false) x = true ->
  SFleb (S754_zero false) (SFdiv prec emax x (S754_finite false my ey)) = true.
Proof.
  destruct x as [s|s| |s m e]; simpl; intros H.
  - reflexivity.
  - destruct s; [discriminate | reflexivity].
  - discriminate.
  - destruct s; [discriminate|]. simpl.
    pose proof (SFdiv_core_binary_nonneg m e my ey) as Hq.
    destruct (SFdiv_core_binary prec emax (Zpos m) e (Zpos my) ey) as [[q e'] l].
    simpl in Hq.
    pose proof (binary_round_aux_sign false q e' l Hq) as Hs.
    destruct (binary_round_aux prec emax false q e' l) as [s|s| |s m' e''];
      simpl in Hs; try contradiction; subst; reflexivity.
Qed.

End QuotientSign.

(** Dividing a double that is not below zero by 10000 gives a double that
    is not below zero. *)
Lemma quotient_by_10000_nonneg (x : float) :
  (0 <=? x)%float = true -> (0 <=? x / 10000)%float = true.
Proof.
  rewrite !leb_spec, div_spec.
  change (Prim2SF 0) with (S754_zero false).
  set (c := Prim2SF 10000). vm_compute in c. subst c.
  apply SFdiv_by_positive_not_below_zero.
Qed.

(** C3 as stated fails: the raw offset 1875000 makes the listener append
    the offset 187.5, the double that stands for 375/2, which is not a
    whole number. *)
Lemma fractional_offset_counterexample :
  exists ev,
    Doubles.visemeReceived []
      {| Doubles.audioOffset := 1875000; Doubles.visemeId := 19 |}
    = [ev]
    /\ Doubles.offset ev = 187.5%float
    /\ (exists q, Doubles.value (Doubles.offset ev) = Some q /\ (q == 375 # 2)%Q)
    /\ ~ Doubles.is_integer (Doubles.offset ev).
Proof.
  eexists. split; [reflexivity|]. simpl.
  split; [vm_compute; reflexivity|].
  split.
  - eexists. split; [vm_compute; reflexivity | reflexivity].
  - intros (q & Hq & z & Hz). vm_compute in Hq. injection Hq as <-.
    unfold Qeq in Hz. simpl in Hz. lia.
Qed.

(** C3, amended: each notification appends exactly one event, after the
    events collected so far; its id is the notification's, and its offset
    is the raw offset divided by 10000 in the double arithmetic of the
    language, with no rounding to a whole number and no integer division.
    The offset is non-negative whenever the raw offset is. *)
Theorem viseme_offset_is_double_quotient (visemes : list Doubles.VisemeEvent)
    (e : Doubles.VisemeNotification) :
  (0 <=? Doubles.audioOffset e)%float = true ->
  exists ev,
    Doubles.visemeReceived visemes e = visemes ++ [ev]
    /\ Doubles.id ev = Doubles.visemeId e
    /\ Doubles.offset ev = (Doubles.audioOffset e / 10000)%float
    /\ (0 <=? Doubles.offset ev)%float = true.
Proof.
  intros Hraw. eexists. split; [reflexivity|]. simpl.
  split; [reflexivity|]. split; [reflexivity|].
  by apply quotient_by_10000_nonneg.
Qed.

Lemma viseme_offset_is_double_quotient_witness :
  exists ev,
    Doubles.visemeReceived []
      {| Doubles.audioOffset := 500000; Doubles.visemeId := 0 |}
    = [] ++ [ev]
    /\ Doubles.id ev = 0%Z
    /\ Doubles.offset ev = (500000 / 10000)%float
    /\ (0 <=? Doubles.offset ev)%float = true.
Proof.
  apply (viseme_offset_is_double_quotient []
           {| Doubles.audioOffset := 500000; Doubles.visemeId := 0 |}).
  vm_compute. reflexivity.
Defined.

(** ** Speech sessions *)

(** C6: on each of the three exits of a session the synthesizer is closed
    before the promise settles.  A call of [textToSpeech] adds four events
    to the trace: the session is created, the markup is spoken, the session
    is closed, the promise settles, in this order; it resolves exactly when
    the call returns; and the session it opened is no longer open. *)
Theorem session_closed_before_settle voice speak message style w :
  let run := Speech.textToSpeech voice speak message style w in
  exists settle,
    trace run.2
    = trace w ++ [SynthNew; SynthSpeak (Ssml.buildSSML voice message style);
                  SynthClose; settle]
    /\ Speech.is_settle settle = true
    /\ (settle = TtsResolve <-> exists result, run.1 = Returned result)
    /\ Speech.open_sessions
         [SynthNew; SynthSpeak (Ssml.buildSSML voice message style); SynthClose; settle] 0
       = 0
    /\ files run.2 = files w.
Proof.
  intros run. subst run. run_eff.
  destruct (Speech.terminal _) as [reason audio|err]; simpl.
  - destruct (Speech.is_completed reason); simpl.
    + exists TtsResolve. rewrite <- !app_assoc. simpl.
      repeat split; eauto.
    + eexists. rewrite <- !app_assoc. simpl.
      repeat split; try reflexivity; [discriminate | intros [? ?]; discriminate].
  - eexists. rewrite <- !app_assoc. simpl.
    repeat split; try reflexivity; [discriminate | intros [? ?]; discriminate].
Qed.

(** ** Chat: a failing speech collaborator *)

(** C5: when the language model has answered and the speech collaborator
    then fails, the chat endpoint answers 500 with the fixed error body,
    and the files are as they were before the request: no audio file is
    written and the reply text is stored nowhere. *)
Theorem speech_failure_leaves_no_file cfg env req_body w content parsed :
  Js.to_boolean (Js.get "message" req_body) = true ->
  Server.create env (Server.completion_request env (Js.get "message" req_body))
  = Returned content ->
  Server.JSON_parse env content = Returned parsed ->
  Speech.fails (Server.speakSsmlAsync env
                  (Ssml.buildSSML (Startup.AZURE_VOICE_NAME cfg)
                     (reply_message parsed) (reply_style parsed))) ->
  let run := Server.post_chat cfg env req_body w in
  run.1 = Returned (Server.json 500
            (Server.JsonError "An error occurred while processing your request."))
  /\ files run.2 = files w.
Proof.
  intros Htruthy Hcreate Hparse Hfail run. subst run. unfold Speech.fails in Hfail.
  run_eff. rewrite Htruthy. simpl. rewrite Hcreate. simpl. rewrite Hparse. simpl.
  destruct (Speech.terminal _) as [reason audio|err]; simpl.
  - rewrite Hfail. simpl. split; reflexivity.
  - split; reflexivity.
Qed.

Lemma speech_failure_leaves_no_file_witness :
  let run := Server.post_chat Demo.cfg (Demo.env_with Demo.cancels)
               [("message", Js.Str "I just got a promotion!")] Demo.empty_world in
  run.1 = Returned (Server.json 500
            (Server.JsonError "An error occurred while processing your request."))
  /\ files run.2 = files Demo.empty_world.
Proof.
  apply (speech_failure_leaves_no_file Demo.cfg (Demo.env_with Demo.cancels)
           [("message", Js.Str "I just got a promotion!")] Demo.empty_world
           "{...}" Demo.reply); reflexivity.
Defined.

(** ** Markup Builder *)

(** C7: [buildSSML] is a total function of its arguments and nothing else,
    and the document it returns is the one the specification describes: a
    voice wrapper that holds, in order, the opening marker, the style span
    around the reply text, and two closing markers.  The text is embedded
    as it is, and the document is exactly a fixed frame of 352 characters
    longer than its three variable parts. *)
Theorem buildSSML_is_markup_document (voice message style : string) :
  Ssml.buildSSML voice message style = Ssml.markup_document voice message style
  /\ occurs_in (Ssml.style_span style (Ssml.indent10 +:+ message +:+ Ssml.indent6))
       (Ssml.buildSSML voice message style)
  /\ String.length (Ssml.buildSSML voice message style)
     = (352 + String.length voice + String.length style + String.length message)%nat.
Proof.
  split; [|split].
  - unfold Ssml.buildSSML, Ssml.markup_document, Ssml.speak_document,
      Ssml.voice_wrapper, Ssml.style_span, Ssml.calibration_marker, quoted,
      Ssml.chunk_head, Ssml.chunk_after_voice, Ssml.chunk_after_style,
      Ssml.chunk_tail, Ssml.indent2, Ssml.indent6, Ssml.indent10.
    rewrite !append_assoc. reflexivity.
  - exists (Ssml.chunk_head +:+ voice +:+ dq +:+ ">" +:+ Ssml.indent6
            +:+ Ssml.calibration_marker "redlips_front" +:+ Ssml.indent6).
    exists (Ssml.indent6 +:+ Ssml.calibration_marker "sil" +:+ Ssml.indent6
            +:+ Ssml.calibration_marker "sil" +:+ Ssml.indent2 +:+ "</voice>"
            +:+ Ssml.indent2 +:+ "</speak>").
    unfold Ssml.buildSSML, Ssml.style_span, Ssml.calibration_marker, quoted,
      Ssml.chunk_head, Ssml.chunk_after_voice, Ssml.chunk_after_style,
      Ssml.chunk_tail, Ssml.indent2, Ssml.indent6, Ssml.indent10.
    rewrite !append_assoc. reflexivity.
  - unfold Ssml.buildSSML. rewrite !append_length.
    change (String.length Ssml.chunk_head) with 148%nat.
    change (String.length Ssml.chunk_after_voice) with 77%nat.
    change (String.length Ssml.chunk_after_style) with 13%nat.
    change (String.length Ssml.chunk_tail) with 114%nat.
    lia.
Qed.

(** ** Startup *)

Lemma env_value_truthy (env : gmap string string) (name : string) :
  Js.to_boolean (Startup.env_value env name) = true
  <-> exists s, env !! name = Some s /\ s <> EmptyString.
Proof.
  unfold Startup.env_value. destruct (env !! name) as [s|]; simpl.
  - rewrite negb_true_iff. split.
    + intros H. exists s. split; [reflexivity|]. by apply String.eqb_neq.
    + intros (s' & Hs' & Hne). injection Hs' as <-. by apply String.eqb_neq.
  - split; [discriminate | intros (s & Hs & _); discriminate].
Qed.

Lemma speech_values_truthy (env : gmap string string) :
  (forall name, name ∈ ["AZURE_SPEECH_KEY"; "AZURE_SPEECH_REGION"; "AZURE_VOICE_NAME"] ->
     exists s, env !! name = Some s /\ s <> EmptyString) ->
  Js.to_boolean (Startup.env_value env "AZURE_SPEECH_KEY") = true
  /\ Js.to_boolean (Startup.env_value env "AZURE_SPEECH_REGION") = true
  /\ Js.to_boolean (Startup.env_value env "AZURE_VOICE_NAME") = true.
Proof.
  intros Hall. repeat split; apply env_value_truthy, Hall; set_solver.
Qed.

(** The guard of the code on the three speech values.  The process starts
    exactly when the client constructor accepts the credential it is
    handed and each of the speech credential, the region and the voice name
    is present and not empty; so it refuses to start when any one of these
    three is absent, whatever the constructor does. *)
Lemma startup_validates_speech_values new_OpenAI (env : gmap string string) :
  ((exists cfg, Startup.startup new_OpenAI env = Startup.Listening cfg)
   <-> new_OpenAI (Startup.env_value env "OPENAI_API_KEY") = None
       /\ forall name, name ∈ Startup.speech_variables ->
            exists s, env !! name = Some s /\ s <> EmptyString)
  /\ forall name, name ∈ Startup.speech_variables -> env !! name = None ->
       exists e, Startup.startup new_OpenAI env = Startup.Refused e.
Proof.
  assert (Hiff :
    (exists cfg, Startup.startup new_OpenAI env = Startup.Listening cfg)
    <-> new_OpenAI (Startup.env_value env "OPENAI_API_KEY") = None
        /\ forall name, name ∈ Startup.speech_variables ->
             exists s, env !! name = Some s /\ s <> EmptyString).
  { unfold Startup.startup, Startup.speech_variables.
    destruct (new_OpenAI _) as [e|].
    { split; [intros [cfg H]; discriminate | intros [H _]; discriminate]. }
    destruct (Js.to_boolean (Startup.env_value env "AZURE_SPEECH_KEY")) eqn:Hk;
    destruct (Js.to_boolean (Startup.env_value env "AZURE_SPEECH_REGION")) eqn:Hr;
    destruct (Js.to_boolean (Startup.env_value env "AZURE_VOICE_NAME")) eqn:Hv;
    simpl.
    1: { split; [|eauto]. intros _. split; [reflexivity|].
         intros name Hin. apply env_value_truthy.
         repeat (apply elem_of_cons in Hin as [->|Hin]; [assumption|]).
         by apply elem_of_nil in Hin. }
    all: split; [intros [cfg H]; discriminate|]; intros [_ Hall].
    all: destruct (speech_values_truthy env Hall) as (Hk' & Hr' & Hv'); congruence. }
  split; [exact Hiff|].
  intros name Hin Hnone.
  destruct (Startup.startup new_OpenAI env) as [cfg|e] eqn:Hs; [|eauto].
  destruct (proj1 Hiff (ex_intro _ cfg eq_refl)) as [_ Hall].
  destruct (Hall name Hin) as (s & Hsome & _). congruence.
Qed.

(** C8: the process refuses to start when any one of the four values is
    absent.  The three speech values are validated by the guard of the
    code; the language-model credential is validated by the constructor of
    the client, the first statement of startup to use it, which throws on
    an absent credential.  With such a constructor, an environment that
    lacks the language-model credential, the speech credential, the region
    or the voice name never reaches the listening state. *)
Theorem startup_refuses_when_a_value_is_absent new_OpenAI
    (env : gmap string string) (name : string) :
  (exists e, new_OpenAI Js.Undefined = Some e) ->
  name ∈ Startup.required_variables ->
  env !! name = None ->
  exists e, Startup.startup new_OpenAI env = Startup.Refused e.
Proof.
  intros [e0 Hctor] Hin Hnone.
  unfold Startup.required_variables in Hin.
  apply elem_of_cons in Hin as [->|Hin].
  - exists e0. unfold Startup.startup, Startup.env_value.
    rewrite Hnone, Hctor. reflexivity.
  - by apply (proj2 (startup_validates_speech_values new_OpenAI env) name).
Qed.

Lemma startup_refuses_when_a_value_is_absent_witness :
  exists e, Startup.startup Cases.openai_client Demo.speech_only_env = Startup.Refused e.
Proof.
  apply (startup_refuses_when_a_value_is_absent Cases.openai_client
           Demo.speech_only_env "OPENAI_API_KEY").
  - eexists. reflexivity.
  - apply list_elem_of_here.
  - vm_compute. reflexivity.
Defined.

(** ** Audio Delivery *)

Lemma get_audio_present env filename data w :
  files w !! Server.path_join env (Server.dirname env) filename = Some data ->
  Server.get_audio env filename w
  = (Returned {| Server.status := 200;
                 Server.headers :=
                   [("Content-Type", "audio/mpeg");
                    ("Content-Disposition", "attachment; filename=" +:+ filename)];
                 Server.body := Server.AudioStream data |},
     {| files := delete (Server.path_join env (Server.dirname env) filename) (files w);
        trace := trace w |}).
Proof.
  intros Hfile. unfold Server.get_audio. rewrite Hfile.
  unfold Server.on_finish, Server.unlink, mbind, mret, Eff_bind, Eff_ret.
  simpl. rewrite Hfile. reflexivity.
Qed.

Lemma get_audio_absent env filename w :
  files w !! Server.path_join env (Server.dirname env) filename = None ->
  Server.get_audio env filename w
  = (Returned (Server.json 404 (Server.JsonError "Audio file not found.")), w).
Proof. intros Hfile. unfold Server.get_audio. by rewrite Hfile. Qed.

(** C4 as stated fails: the artifact can be delivered twice.  The handler
    is two callbacks, the one of the existence check, which starts the
    stream, and the finish listener, which unlinks.  When a second request
    for the artifact of the directory passes its existence check before
    the first response has finished, both requests are answered 200 with
    the audio bytes; run on its own, the handler is these two callbacks one
    after the other. *)
Lemma artifact_delivered_twice_counterexample :
  let name := "response_1b9d6bcd-bbfd-4b2d-9b5d-ab8dfbbd4bed.mp3" in
  let first := Parts.on_access Demo.env name Demo.stocked_world in
  let second := Parts.on_access Demo.env name Demo.stocked_world in
  let after_first := (Parts.finish first.2 Demo.stocked_world).2 in
  let after_second := (Parts.finish second.2 after_first).2 in
  Server.get_audio Demo.env name Demo.stocked_world = (Returned first.1, after_first)
  /\ (Server.status first.1 = 200 /\ Server.body first.1 = Server.AudioStream Demo.audio)
  /\ (Server.status second.1 = 200
      /\ Server.body second.1 = Server.AudioStream Demo.audio)
  /\ files after_second
       !! Server.path_join Demo.env (Server.dirname Demo.env) name = None.
Proof.
  repeat split; vm_compute; reflexivity.
Qed.

(** C4, amended: fetches in sequence deliver an artifact once.  When the
    file of a filename exists, the first fetch answers 200 with its bytes
    and unlinks it once the response has finished; a second fetch of the
    same filename that arrives after that answers 404 and changes
    nothing. *)
Theorem audio_delivered_at_most_once env filename data w :
  files w !! Server.path_join env (Server.dirname env) filename = Some data ->
  let first := Server.get_audio env filename w in
  let second := Server.get_audio env filename first.2 in
  (exists r, first.1 = Returned r /\ Server.status r = 200
             /\ Server.body r = Server.AudioStream data)
  /\ files first.2 !! Server.path_join env (Server.dirname env) filename = None
  /\ second.1 = Returned (Server.json 404 (Server.JsonError "Audio file not found."))
  /\ second.2 = first.2.
Proof.
  intros Hfile first second. subst first second.
  rewrite (get_audio_present env filename data w Hfile). simpl.
  split; [eexists; repeat split; reflexivity|].
  split; [apply lookup_delete_eq|].
  rewrite get_audio_absent by (simpl; apply lookup_delete_eq).
  split; reflexivity.
Qed.

Lemma audio_delivered_at_most_once_witness :
  let name := "response_1b9d6bcd-bbfd-4b2d-9b5d-ab8dfbbd4bed.mp3" in
  let path := Server.path_join Demo.env (Server.dirname Demo.env) name in
  let first := Server.get_audio Demo.env name Demo.stocked_world in
  let second := Server.get_audio Demo.env name first.2 in
  (exists r, first.1 = Returned r /\ Server.status r = 200
             /\ Server.body r = Server.AudioStream Demo.audio)
  /\ files first.2 !! path = None
  /\ second.1 = Returned (Server.json 404 (Server.JsonError "Audio file not found."))
  /\ second.2 = first.2.
Proof.
  apply (audio_delivered_at_most_once Demo.env
           "response_1b9d6bcd-bbfd-4b2d-9b5d-ab8dfbbd4bed.mp3" Demo.audio
           Demo.stocked_world).
  vm_compute. reflexivity.
Defined.


(** The server's own source file is not an artifact of the chat flow. *)
Lemma server_js_not_artifact : ~ Server.artifact_name "server.js".
Proof.
  intros [uuid Huuid]. discriminate Huuid.
Qed.


(** * Further properties of the code *)

(** ** Collecting visemes *)

Lemma fold_visemeReceived (ns : list Speech.VisemeNotification)
    (acc : list Speech.VisemeEvent) :
  fold_left Speech.visemeReceived ns acc = acc ++ (Parts.event_of <$> ns).
Proof.
  revert acc. induction ns as [|n ns IH]; intros acc; simpl.
  - by rewrite app_nil_r.
  - rewrite IH. unfold Speech.visemeReceived, Parts.event_of.
    by rewrite <- app_assoc.
Qed.

(** X1: a session that completes resolves with the audio bytes the
    collaborator delivered and with one viseme event per notification, in
    the order the notifications came, each with the id of its
    notification; nothing is dropped or added. *)
Theorem completed_session_result voice speak message style w reason audioData :
  Speech.terminal (speak (Ssml.buildSSML voice message style))
  = Speech.OnResult reason audioData ->
  Speech.is_completed reason = true ->
  let ns := Speech.notifications (speak (Ssml.buildSSML voice message style)) in
  exists result,
    (Speech.textToSpeech voice speak message style w).1 = Returned result
    /\ Speech.audioBuffer result = audioData
    /\ length (Speech.visemes result) = length ns
    /\ Speech.id <$> Speech.visemes result = Speech.visemeId <$> ns.
Proof.
  intros Hterm Hdone ns. subst ns. run_eff. rewrite Hterm, Hdone. simpl.
  eexists. split; [reflexivity|]. simpl.
  rewrite fold_visemeReceived. simpl.
  split; [reflexivity|]. split; [by rewrite length_fmap|].
  rewrite <- list_fmap_compose. reflexivity.
Qed.

Lemma completed_session_result_witness :
  exists result,
    (Speech.textToSpeech "en-US-JennyNeural" Demo.speaks "Congratulations!"
       "cheerful" Demo.empty_world).1 = Returned result
    /\ Speech.audioBuffer result = Demo.audio
    /\ length (Speech.visemes result) = 2%nat
    /\ Speech.id <$> Speech.visemes result = [0%Z; 19%Z].
Proof.
  exact (completed_session_result "en-US-JennyNeural" Demo.speaks "Congratulations!"
           "cheerful" Demo.empty_world Speech.SynthesizingAudioCompleted Demo.audio
           eq_refl eq_refl).
Defined.




(** ** Chat: the path that succeeds *)

Lemma post_chat_success cfg env req_body w parsed audioData :
  Parts.chat_goes_well cfg env req_body parsed audioData ->
  (Server.post_chat cfg env req_body w).1
  = Returned (Server.json 200
      (Server.JsonChat (reply_message parsed) (reply_style parsed)
         (reply_reasoning parsed) (Parts.uniqueFilename env)
         (Parts.event_of
            <$> Speech.notifications
                  (Server.speakSsmlAsync env (Parts.ssml_of cfg parsed)))))
  /\ files (Server.post_chat cfg env req_body w).2
     = <[Parts.filePath env := audioData]> (files w).
Proof.
  intros (Htruthy & (content & Hcreate & Hparse) & Hterm & Hwrite).
  unfold Parts.ssml_of, Parts.filePath, Parts.uniqueFilename in *.
  run_eff. rewrite Htruthy. simpl. rewrite Hcreate. simpl. rewrite Hparse. simpl.
  rewrite Hterm. simpl. rewrite Hwrite. simpl.
  rewrite fold_visemeReceived. simpl. split; reflexivity.
Qed.

(** X3: when every step goes well the chat endpoint answers 200 with the
    reply text, style and reasoning of the language model, the name
    response_<uuid>.mp3 and the collected visemes; and the directory gains
    exactly one file, at the join of the server directory and that name,
    holding exactly the synthesized audio.  Every other file is as it
    was. *)
Theorem chat_success_writes_one_artifact cfg env req_body w parsed audioData :
  Parts.chat_goes_well cfg env req_body parsed audioData ->
  let run := Server.post_chat cfg env req_body w in
  exists visemes,
    run.1 = Returned (Server.json 200
              (Server.JsonChat (reply_message parsed) (reply_style parsed)
                 (reply_reasoning parsed) (Parts.uniqueFilename env) visemes))
    /\ Server.artifact_name (Parts.uniqueFilename env)
    /\ length visemes
       = length (Speech.notifications
                   (Server.speakSsmlAsync env (Parts.ssml_of cfg parsed)))
    /\ files run.2 !! Parts.filePath env = Some audioData
    /\ forall other, other <> Parts.filePath env ->
         files run.2 !! other = files w !! other.
Proof.
  intros Hwell run. subst run.
  destruct (post_chat_success cfg env req_body w parsed audioData Hwell) as [Hr Hf].
  eexists. split; [exact Hr|].
  split; [by exists (Server.uuidv4 env)|].
  split; [by rewrite length_fmap|].
  rewrite Hf. split; [apply lookup_insert_eq|].
  intros other Hne. by apply lookup_insert_ne.
Qed.

Lemma demo_goes_well :
  Parts.chat_goes_well Demo.cfg Demo.env Cases.promotion Demo.reply Demo.audio.
Proof.
  split; [reflexivity|]. split; [exists "{...}"; split; reflexivity|].
  split; reflexivity.
Defined.

Lemma chat_success_writes_one_artifact_witness :
  let run := Server.post_chat Demo.cfg Demo.env Cases.promotion Demo.empty_world in
  exists visemes,
    run.1 = Returned (Server.json 200
              (Server.JsonChat "Congratulations!" "cheerful"
                 "Good news deserves a cheerful voice."
                 "response_1b9d6bcd-bbfd-4b2d-9b5d-ab8dfbbd4bed.mp3" visemes))
    /\ Server.artifact_name (Parts.uniqueFilename Demo.env)
    /\ length visemes = 2%nat
    /\ files run.2 !! Parts.filePath Demo.env = Some Demo.audio
    /\ forall other, other <> Parts.filePath Demo.env ->
         files run.2 !! other = files Demo.empty_world !! other.
Proof.
  exact (chat_success_writes_one_artifact Demo.cfg Demo.env Cases.promotion
           Demo.empty_world Demo.reply Demo.audio demo_goes_well).
Defined.

(** X4: a chat and the fetch of its audio compose.  After a chat request
    that went well, fetching the name it returned answers 200 with exactly
    the bytes the speech collaborator synthesized; the fetch removes the
    file again, and when the name was not in use before the chat, the
    directory is back to what it was. *)
Theorem chat_then_fetch_round_trip cfg env req_body w parsed audioData :
  Parts.chat_goes_well cfg env req_body parsed audioData ->
  let chat := Server.post_chat cfg env req_body w in
  let fetch := Server.get_audio env (Parts.uniqueFilename env) chat.2 in
  (exists r, fetch.1 = Returned r /\ Server.status r = 200
             /\ Server.body r = Server.AudioStream audioData)
  /\ files fetch.2 !! Parts.filePath env = None
  /\ (files w !! Parts.filePath env = None -> files fetch.2 = files w).
Proof.
  intros Hwell chat fetch. subst chat fetch.
  destruct (post_chat_success cfg env req_body w parsed audioData Hwell) as [_ Hf].
  assert (Hfile : files (Server.post_chat cfg env req_body w).2
                  !! Server.path_join env (Server.dirname env) (Parts.uniqueFilename env)
                  = Some audioData).
  { rewrite Hf. apply lookup_insert_eq. }
  rewrite (get_audio_present env _ audioData _ Hfile). simpl.
  split; [eexists; repeat split; reflexivity|].
  split; [apply lookup_delete_eq|].
  intros Hfresh. rewrite Hf. fold (Parts.filePath env).
  rewrite delete_insert_eq. by apply delete_id.
Qed.

Lemma chat_then_fetch_round_trip_witness :
  let chat := Server.post_chat Demo.cfg Demo.env Cases.promotion Demo.empty_world in
  let fetch := Server.get_audio Demo.env (Parts.uniqueFilename Demo.env) chat.2 in
  (exists r, fetch.1 = Returned r /\ Server.status r = 200
             /\ Server.body r = Server.AudioStream Demo.audio)
  /\ files fetch.2 !! Parts.filePath Demo.env = None
  /\ (files Demo.empty_world !! Parts.filePath Demo.env = None ->
      files fetch.2 = files Demo.empty_world).
Proof.
  exact (chat_then_fetch_round_trip Demo.cfg Demo.env Cases.promotion
           Demo.empty_world Demo.reply Demo.audio demo_goes_well).
Defined.

(** ** Chat: the paths that fail *)

(** X5: when the language model cannot be reached, or answers with text
    that does not parse, the request ends there: the answer is 500 with the
    fixed body, no file is touched, and the speech collaborator is never
    contacted.  The run adds to the trace the two console lines, the one
    call to the language model and the two error lines of the catch block,
    and nothing else. *)
Theorem llm_failure_stops_the_request cfg env req_body w e :
  Js.to_boolean (Js.get "message" req_body) = true ->
  (Server.create env (Server.completion_request env (Js.get "message" req_body))
   = Thrown e
   \/ exists content,
        Server.create env (Server.completion_request env (Js.get "message" req_body))
        = Returned content
        /\ Server.JSON_parse env content = Thrown e) ->
  Server.post_chat cfg env req_body w
  = (Returned (Server.json 500
       (Server.JsonError "An error occurred while processing your request.")),
     {| files := files w;
        trace := trace w
          ++ [ConsoleLog "Received message:" [LogValue (Js.get "message" req_body)];
              ConsoleLog "Requesting OpenAI response..." [];
              LlmCall (Server.completion_request env (Js.get "message" req_body));
              ConsoleError "Error in /api/chat:" [LogError e];
              ConsoleError "Error details:" [LogError e]] |}).
Proof.
  intros Htruthy [Hcreate | (content & Hcreate & Hparse)];
    run_eff; rewrite Htruthy; simpl; rewrite Hcreate; simpl.
  - rewrite <- !app_assoc. reflexivity.
  - rewrite Hparse. simpl. rewrite <- !app_assoc. reflexivity.
Qed.

Lemma llm_failure_stops_the_request_witness :
  Server.post_chat Demo.cfg Cases.unreachable_env Cases.promotion Demo.empty_world
  = (Returned (Server.json 500
       (Server.JsonError "An error occurred while processing your request.")),
     {| files := files Demo.empty_world;
        trace := trace Demo.empty_world
          ++ [ConsoleLog "Received message:"
                [LogValue (Js.get "message" Cases.promotion)];
              ConsoleLog "Requesting OpenAI response..." [];
              LlmCall (Server.completion_request Cases.unreachable_env
                         (Js.get "message" Cases.promotion));
              ConsoleError "Error in /api/chat:"
                [LogError (new_Error "Connection error.")];
              ConsoleError "Error details:"
                [LogError (new_Error "Connection error.")]] |}).
Proof.
  apply (llm_failure_stops_the_request Demo.cfg Cases.unreachable_env
           Cases.promotion Demo.empty_world (new_Error "Connection error."));
    [reflexivity | left; reflexivity].
Defined.

(** X6: when the audio was synthesized but writing the file fails, the
    answer is 500 with the fixed body, and the catch block removes nothing.
    If the write failed at the open, the directory is unchanged; if it
    failed while writing, the file of the request stays behind with the
    bytes written so far, and every other file is unchanged.  The error
    logged is the one the write threw, and the synthesizer session of the
    request was closed before. *)
Theorem write_failure_answers_500 cfg env req_body w content parsed audioData failure :
  Js.to_boolean (Js.get "message" req_body) = true ->
  Server.create env (Server.completion_request env (Js.get "message" req_body))
  = Returned content ->
  Server.JSON_parse env content = Returned parsed ->
  Speech.terminal (Server.speakSsmlAsync env (Parts.ssml_of cfg parsed))
  = Speech.OnResult Speech.SynthesizingAudioCompleted audioData ->
  Server.write_error env (Parts.filePath env) = Some failure ->
  let run := Server.post_chat cfg env req_body w in
  let e := match failure with
           | Server.OpenFails e | Server.WriteFails e _ => e
           end in
  run.1 = Returned (Server.json 500
            (Server.JsonError "An error occurred while processing your request."))
  /\ files run.2
     = match failure with
       | Server.OpenFails _ => files w
       | Server.WriteFails _ written =>
           <[Parts.filePath env := take written audioData]> (files w)
       end
  /\ (forall other, other <> Parts.filePath env ->
        files run.2 !! other = files w !! other)
  /\ exists before,
       trace run.2
       = before ++ Parts.session (Parts.ssml_of cfg parsed) TtsResolve
         ++ [ConsoleLog "Speech conversion complete, visemes:"
               [LogCount (length (Speech.notifications
                            (Server.speakSsmlAsync env (Parts.ssml_of cfg parsed))))];
             ConsoleError "Error in /api/chat:" [LogError e];
             ConsoleError "Error details:" [LogError e]].
Proof.
  intros Htruthy Hcreate Hparse Hterm Hwrite run e. subst run e.
  unfold Parts.ssml_of, Parts.filePath, Parts.uniqueFilename, Parts.session in *.
  run_eff. rewrite Htruthy. simpl. rewrite Hcreate. simpl. rewrite Hparse. simpl.
  rewrite Hterm. simpl. rewrite Hwrite. simpl.
  rewrite fold_visemeReceived. simpl. rewrite length_fmap.
  destruct failure as [e|e written]; simpl;
    (split; [reflexivity|]); (split; [reflexivity|]); split.
  - reflexivity.
  - exists (trace w
            ++ [ConsoleLog "Received message:" [LogValue (Js.get "message" req_body)];
                ConsoleLog "Requesting OpenAI response..." [];
                LlmCall (Server.completion_request env (Js.get "message" req_body));
                ConsoleLog "OpenAI response:" [LogReply parsed];
                ConsoleLog "Using style:" [LogValue (Js.Str (reply_style parsed))];
                ConsoleLog "Converting to speech..." []]).
    rewrite <- !app_assoc. reflexivity.
  - intros other Hne. by apply lookup_insert_ne.
  - exists (trace w
            ++ [ConsoleLog "Received message:" [LogValue (Js.get "message" req_body)];
                ConsoleLog "Requesting OpenAI response..." [];
                LlmCall (Server.completion_request env (Js.get "message" req_body));
                ConsoleLog "OpenAI response:" [LogReply parsed];
                ConsoleLog "Using style:" [LogValue (Js.Str (reply_style parsed))];
                ConsoleLog "Converting to speech..." []]).
    rewrite <- !app_assoc. reflexivity.
Qed.

Lemma write_failure_answers_500_witness :
  let run := Server.post_chat Demo.cfg Cases.full_disk_env Cases.promotion
               Demo.empty_world in
  run.1 = Returned (Server.json 500
            (Server.JsonError "An error occurred while processing your request."))
  /\ files run.2
     = <[Parts.filePath Cases.full_disk_env := take 2 Demo.audio]>
         (files Demo.empty_world)
  /\ (forall other, other <> Parts.filePath Cases.full_disk_env ->
        files run.2 !! other = files Demo.empty_world !! other)
  /\ exists before,
       trace run.2
       = before ++ Parts.session (Parts.ssml_of Demo.cfg Demo.reply) TtsResolve
         ++ [ConsoleLog "Speech conversion complete, visemes:" [LogCount 2];
             ConsoleError "Error in /api/chat:" [LogError (new_Error "ENOSPC")];
             ConsoleError "Error details:" [LogError (new_Error "ENOSPC")]].
Proof.
  apply (write_failure_answers_500 Demo.cfg Cases.full_disk_env Cases.promotion
           Demo.empty_world "{...}" Demo.reply Demo.audio
           (Server.WriteFails (new_Error "ENOSPC") 2));
    reflexivity.
Defined.

(** ** Chat: what holds on every path *)

Lemma open_sessions_app (t1 t2 : list Event) (n : nat) :
  Speech.open_sessions (t1 ++ t2) n
  = Speech.open_sessions t2 (Speech.open_sessions t1 n).
Proof.
  revert n. induction t1 as [|ev t1 IH]; intros n; [reflexivity|].
  destruct ev; simpl; apply IH.
Qed.

(** X7: a chat request never leaves a synthesizer session open.  Whatever
    the request body is and whatever the collaborators and the disk do, the
    run only appends to the trace, and along what it appends every session
    that is created is closed again: the number of open sessions after the
    request is the number before it. *)
Theorem chat_leaves_no_session_open cfg env req_body w :
  let run := Server.post_chat cfg env req_body w in
  exists added,
    trace run.2 = trace w ++ added
    /\ (forall n, Speech.open_sessions added n = n)
    /\ forall n, Speech.open_sessions (trace run.2) n
                 = Speech.open_sessions (trace w) n.
Proof.
  intros run. subst run.
  assert (Hadded : exists added,
            trace (Server.post_chat cfg env req_body w).2 = trace w ++ added
            /\ forall n, Speech.open_sessions added n = n).
  { run_eff.
    destruct (Js.to_boolean (Js.get "message" req_body)); simpl;
      [|eexists; split; [rewrite <- !app_assoc; reflexivity | reflexivity]].
    destruct (Server.create env _) as [content|e]; simpl;
      [|eexists; split; [rewrite <- !app_assoc; reflexivity | reflexivity]].
    destruct (Server.JSON_parse env content) as [reply|e]; simpl;
      [|eexists; split; [rewrite <- !app_assoc; reflexivity | reflexivity]].
    destruct (Speech.terminal _) as [reason audio|e]; simpl;
      [|eexists; split; [rewrite <- !app_assoc; reflexivity | reflexivity]].
    destruct (Speech.is_completed reason); simpl;
      [|eexists; split; [rewrite <- !app_assoc; reflexivity | reflexivity]].
    destruct (Server.write_error env _) as [[?|? ?]|]; simpl;
      eexists; (split; [rewrite <- !app_assoc; reflexivity | reflexivity]). }
  destruct Hadded as (added & Htrace & Hclosed).
  exists added. split; [exact Htrace|]. split; [exact Hclosed|].
  intros n. rewrite Htrace, open_sessions_app. apply Hclosed.
Qed.

(** X8: however the collaborators and the disk answer, the answer of the
    chat handler has one of three shapes: 200 with a reply and the name
    response_<uuid>.mp3, 400 with the text that a message is required, or
    500 with one fixed text that says nothing about the error.  A 400
    leaves the directory exactly as it was, and on every answer the only
    path whose file can differ afterwards is the one of the request, the
    join of the server directory and response_<uuid>.mp3. *)
Theorem chat_answers_in_three_shapes cfg env req_body w :
  let run := Server.post_chat cfg env req_body w in
  (exists r, run.1 = Returned r
     /\ ((exists response style reasoning visemes,
            r = Server.json 200
                  (Server.JsonChat response style reasoning
                     (Parts.uniqueFilename env) visemes))
         \/ (r = Server.json 400 (Server.JsonError "Message is required.")
             /\ files run.2 = files w)
         \/ r = Server.json 500
                  (Server.JsonError
                     "An error occurred while processing your request.")))
  /\ forall other, other <> Parts.filePath env ->
       files run.2 !! other = files w !! other.
Proof.
  intros run. subst run. unfold Parts.filePath, Parts.uniqueFilename. run_eff.
  destruct (Js.to_boolean (Js.get "message" req_body)); simpl;
    [|split; [eexists; split; [reflexivity | right; left; split; reflexivity]
             | reflexivity]].
  destruct (Server.create env _) as [content|e]; simpl;
    [|split; [eexists; split; [reflexivity | right; right; reflexivity]
             | reflexivity]].
  destruct (Server.JSON_parse env content) as [reply|e]; simpl;
    [|split; [eexists; split; [reflexivity | right; right; reflexivity]
             | reflexivity]].
  destruct (Speech.terminal _) as [reason audio|e]; simpl;
    [|split; [eexists; split; [reflexivity | right; right; reflexivity]
             | reflexivity]].
  destruct (Speech.is_completed reason); simpl;
    [|split; [eexists; split; [reflexivity | right; right; reflexivity]
             | reflexivity]].
  destruct (Server.write_error env _) as [[e|e written]|]; simpl.
  - split; [eexists; split; [reflexivity | right; right; reflexivity]
           | reflexivity].
  - split; [eexists; split; [reflexivity | right; right; reflexivity]|].
    intros other Hne. by apply lookup_insert_ne.
  - split; [eexists; split; [reflexivity | left; do 4 eexists; reflexivity]|].
    intros other Hne. by apply lookup_insert_ne.
Qed.

(** ** Audio Delivery: two requests at a time *)

(** The audio handler is its two callbacks run one after the other. *)
Lemma get_audio_in_two_steps env filename w :
  Server.get_audio env filename w
  = (Returned (Parts.on_access env filename w).1,
     (Parts.finish (Parts.on_access env filename w).2 w).2).
Proof.
  unfold Server.get_audio, Parts.on_access, Parts.finish.
  destruct (files w !! Server.path_join env (Server.dirname env) filename)
    as [data|] eqn:Hfile; simpl; [|reflexivity].
  unfold Server.on_finish, Server.unlink, mbind, mret, Eff_bind, Eff_ret.
  rewrite Hfile. reflexivity.
Qed.

(** X10: two fetches that overlap are both served.  The handler is two
    callbacks, the one of the existence check, which starts the stream, and
    the finish listener, which unlinks.  When a second request for the same
    existing file passes its existence check before the first response has
    finished, both get 200 with the bytes; the first finish removes the
    file, and the second finish finds it gone, leaves the directory alone
    and logs the unlink error. *)
Theorem overlapping_fetches_both_served env filename data w :
  files w !! Server.path_join env (Server.dirname env) filename = Some data ->
  let path := Server.path_join env (Server.dirname env) filename in
  let first := Parts.on_access env filename w in
  let second := Parts.on_access env filename w in
  let after_first := (Parts.finish first.2 w).2 in
  let after_second := (Parts.finish second.2 after_first).2 in
  (Server.status first.1 = 200 /\ Server.body first.1 = Server.AudioStream data)
  /\ (Server.status second.1 = 200 /\ Server.body second.1 = Server.AudioStream data)
  /\ files after_first = delete path (files w)
  /\ files after_second = files after_first
  /\ trace after_second
     = trace w ++ [ConsoleError "Error deleting audio file:" [LogError Parts.ENOENT]].
Proof.
  intros Hfile path first second after_first after_second.
  subst path first second after_first after_second.
  unfold Parts.on_access. rewrite Hfile. simpl.
  unfold Server.on_finish, Server.unlink. rewrite Hfile. simpl.
  rewrite lookup_delete_eq. simpl.
  repeat split; reflexivity.
Qed.

Lemma overlapping_fetches_both_served_witness :
  let name := "response_1b9d6bcd-bbfd-4b2d-9b5d-ab8dfbbd4bed.mp3" in
  let path := Server.path_join Demo.env (Server.dirname Demo.env) name in
  let first := Parts.on_access Demo.env name Demo.stocked_world in
  let second := Parts.on_access Demo.env name Demo.stocked_world in
  let after_first := (Parts.finish first.2 Demo.stocked_world).2 in
  let after_second := (Parts.finish second.2 after_first).2 in
  (Server.status first.1 = 200 /\ Server.body first.1 = Server.AudioStream Demo.audio)
  /\ (Server.status second.1 = 200
      /\ Server.body second.1 = Server.AudioStream Demo.audio)
  /\ files after_first = delete path (files Demo.stocked_world)
  /\ files after_second = files after_first
  /\ trace after_second
     = trace Demo.stocked_world
       ++ [ConsoleError "Error deleting audio file:" [LogError Parts.ENOENT]].
Proof.
  apply (overlapping_fetches_both_served Demo.env
           "response_1b9d6bcd-bbfd-4b2d-9b5d-ab8dfbbd4bed.mp3" Demo.audio
           Demo.stocked_world).
  vm_compute. reflexivity.
Defined.

(** ** Startup: what is read and why it refuses *)

Lemma env_value_falsy (env : gmap string string) (name : string) :
  Js.to_boolean (Startup.env_value env name) = false
  <-> env !! name = None \/ env !! name = Some EmptyString.
Proof.
  unfold Startup.env_value. destruct (env !! name) as [s|]; simpl.
  - rewrite negb_false_iff, String.eqb_eq. split.
    + intros ->. by right.
    + intros [H|H]; [discriminate | by injection H].
  - split; [by left | reflexivity].
Qed.

(** X11: a server that starts runs with the values of its environment.
    When startup ends listening, the speech credential, the region and the
    voice name it keeps are the values of the three variables, none of them
    empty, and the client constructor had accepted the credential. *)
Theorem started_config_is_the_environment new_OpenAI (env : gmap string string) cfg :
  Startup.startup new_OpenAI env = Startup.Listening cfg ->
  new_OpenAI (Startup.env_value env "OPENAI_API_KEY") = None
  /\ env !! "AZURE_SPEECH_KEY" = Some (Startup.AZURE_SPEECH_KEY cfg)
  /\ env !! "AZURE_SPEECH_REGION" = Some (Startup.AZURE_SPEECH_REGION cfg)
  /\ env !! "AZURE_VOICE_NAME" = Some (Startup.AZURE_VOICE_NAME cfg)
  /\ Startup.AZURE_SPEECH_KEY cfg <> EmptyString
  /\ Startup.AZURE_SPEECH_REGION cfg <> EmptyString
  /\ Startup.AZURE_VOICE_NAME cfg <> EmptyString.
Proof.
  unfold Startup.startup. intros Hstart.
  destruct (new_OpenAI _) as [e|]; [discriminate|].
  destruct (Js.to_boolean (Startup.env_value env "AZURE_SPEECH_KEY")) eqn:Hk;
    [|discriminate].
  destruct (Js.to_boolean (Startup.env_value env "AZURE_SPEECH_REGION")) eqn:Hr;
    [|discriminate].
  destruct (Js.to_boolean (Startup.env_value env "AZURE_VOICE_NAME")) eqn:Hv;
    [|discriminate].
  simpl in Hstart. injection Hstart as <-. simpl.
  apply env_value_truthy in Hk as (k & Hk & Hkne).
  apply env_value_truthy in Hr as (r & Hr & Hrne).
  apply env_value_truthy in Hv as (v & Hv & Hvne).
  rewrite Hk, Hr, Hv. simpl. repeat split; assumption.
Qed.

Lemma started_config_is_the_environment_witness :
  Cases.openai_client (Startup.env_value Cases.full_env "OPENAI_API_KEY") = None
  /\ Cases.full_env !! "AZURE_SPEECH_KEY" = Some (Startup.AZURE_SPEECH_KEY Demo.cfg)
  /\ Cases.full_env !! "AZURE_SPEECH_REGION"
     = Some (Startup.AZURE_SPEECH_REGION Demo.cfg)
  /\ Cases.full_env !! "AZURE_VOICE_NAME" = Some (Startup.AZURE_VOICE_NAME Demo.cfg)
  /\ Startup.AZURE_SPEECH_KEY Demo.cfg <> EmptyString
  /\ Startup.AZURE_SPEECH_REGION Demo.cfg <> EmptyString
  /\ Startup.AZURE_VOICE_NAME Demo.cfg <> EmptyString.
Proof.
  apply (started_config_is_the_environment Cases.openai_client Cases.full_env Demo.cfg).
  vm_compute. reflexivity.
Defined.

(** X12: why startup refuses.  The error it throws is the one of the
    client constructor, which runs first and so wins even when speech
    values are missing too; or, when the constructor accepted, the error
    that names the speech variables, and then one of the three is absent
    or empty. *)
Theorem startup_refusal_has_a_cause new_OpenAI (env : gmap string string) e :
  Startup.startup new_OpenAI env = Startup.Refused e ->
  new_OpenAI (Startup.env_value env "OPENAI_API_KEY") = Some e
  \/ (new_OpenAI (Startup.env_value env "OPENAI_API_KEY") = None
      /\ e = new_Error "Azure Speech service environment variables are not defined."
      /\ exists name, name ∈ Startup.speech_variables
           /\ (env !! name = None \/ env !! name = Some EmptyString)).
Proof.
  unfold Startup.startup, Startup.speech_variables. intros Hstart.
  destruct (new_OpenAI _) as [e'|]; [left; congruence|]. right.
  split; [reflexivity|].
  destruct (Js.to_boolean (Startup.env_value env "AZURE_SPEECH_KEY")) eqn:Hk;
    [|simpl in Hstart; split; [congruence|];
      exists "AZURE_SPEECH_KEY"; split; [set_solver | by apply env_value_falsy]].
  destruct (Js.to_boolean (Startup.env_value env "AZURE_SPEECH_REGION")) eqn:Hr;
    [|simpl in Hstart; split; [congruence|];
      exists "AZURE_SPEECH_REGION"; split; [set_solver | by apply env_value_falsy]].
  destruct (Js.to_boolean (Startup.env_value env "AZURE_VOICE_NAME")) eqn:Hv;
    [|simpl in Hstart; split; [congruence|];
      exists "AZURE_VOICE_NAME"; split; [set_solver | by apply env_value_falsy]].
  discriminate.
Qed.

Lemma startup_refusal_has_a_cause_witness :
  Cases.openai_client (Startup.env_value Cases.llm_only_env "OPENAI_API_KEY")
  = Some (new_Error "Azure Speech service environment variables are not defined.")
  \/ (Cases.openai_client (Startup.env_value Cases.llm_only_env "OPENAI_API_KEY") = None
      /\ new_Error "Azure Speech service environment variables are not defined."
         = new_Error "Azure Speech service environment variables are not defined."
      /\ exists name, name ∈ Startup.speech_variables
           /\ (Cases.llm_only_env !! name = None
               \/ Cases.llm_only_env !! name = Some EmptyString)).
Proof.
  apply (startup_refusal_has_a_cause Cases.openai_client Cases.llm_only_env
           (new_Error "Azure Speech service environment variables are not defined.")).
  vm_compute. reflexivity.
Defined.
